(** * dnf-plugins-extras: the [rpmconf] plugin ([plugins/rpm_conf.py])

    A shallow embedding of the plugin: the unattended resolution engine
    [UnattendedRpmConf] (duplicate test, [rpmnew] and [rpmsave] handlers) and
    the session controller [Rpmconf] (hooks [config], [resolved],
    [transaction]), followed by the properties of the specification.

    Python values are modelled as the code has them: an attribute that may be
    [None] is an [option]; a method that mutates the file system, writes to
    the logger or raises is a computation in the monad [M] over a [world]
    made of the file system and the trace of calls to the collaborators. *)

From Stdlib Require Import ZArith.
From stdpp Require Import gmap strings list fin_maps.

Local Open Scope Z_scope.
Local Open Scope string_scope.

(* ===================================================================== *)
(** ** The file system *)
(* ===================================================================== *)

Abbreviation path := string.
Abbreviation bytes := (list Byte.byte).

#[global] Instance byte_eq_dec : EqDecision Byte.byte.
Proof.
  intros x y. destruct (Byte.eqb x y) eqn:E.
  - left. by apply Byte.byte_dec_bl.
  - right. intros Hxy. apply Byte.byte_dec_lb in Hxy. congruence.
Defined.

(** What a path names: a regular file with its bytes and modification time,
    a symbolic link with its target, or any other inode (directory, device,
    fifo, socket) of which only size and modification time are visible.
    Paths are compared as strings; a link target is a path of the same
    name space. *)
Inductive node :=
| Regular (content : bytes) (mtime : Z)
| Symlink (target : path)
| Other (size : Z) (mtime : Z).

#[global] Instance node_eq_dec : EqDecision node.
Proof. solve_decision. Defined.

(** [stat.S_IFMT] of a mode, as far as [filecmp] looks at it. *)
Inductive file_type := S_IFREG | S_IFLNK | S_IFOTHER.

#[global] Instance file_type_eq_dec : EqDecision file_type.
Proof. solve_decision. Defined.

(** The kernel follows at most this many links in one lookup (ELOOP). *)
Definition MAXSYMLINKS : nat := 40.

(** [os.lstat]: the node itself. *)
Definition lstat (fs : gmap path node) (p : path) : option node := fs !! p.

(** Following links from [p], at most [fuel] of them. *)
Fixpoint follow (fuel : nat) (fs : gmap path node) (p : path) : option node :=
  match fs !! p with
  | None => None
  | Some (Symlink t) =>
      match fuel with
      | O => None
      | S fuel' => follow fuel' fs t
      end
  | Some n => Some n
  end.

(** [os.stat]: the node after following links; [None] is [OSError]. *)
Definition os_stat (fs : gmap path node) (p : path) : option node :=
  follow MAXSYMLINKS fs p.

(** [os.path.islink] and [os.path.exists]; neither raises. *)
Definition islink (fs : gmap path node) (p : path) : bool :=
  match lstat fs p with
  | Some (Symlink _) => true
  | _ => false
  end.

Definition exists_ (fs : gmap path node) (p : path) : bool :=
  bool_decide (is_Some (os_stat fs p)).

(** [filecmp._sig]: (type, size, mtime) of a stat result. *)
Definition _sig (n : node) : file_type * Z * Z :=
  match n with
  | Regular c t => (S_IFREG, Z.of_nat (length c), t)
  | Symlink _ => (S_IFLNK, 0, 0)
  | Other sz t => (S_IFOTHER, sz, t)
  end.

(** [filecmp._do_cmp]: the two files read and compared chunk by chunk. *)
Definition _do_cmp (n1 n2 : node) : bool :=
  match n1, n2 with
  | Regular c1 _, Regular c2 _ => bool_decide (c1 = c2)
  | _, _ => false
  end.

(** [filecmp.cmp(f1, f2)] of the Python standard library, called by the
    plugin with its default [shallow=True]: "treat files as identical if
    their stat signatures (type, size, mtime) are identical. Otherwise,
    files are considered different if their sizes or contents differ."
    [None] is the [OSError] of [os.stat]. The library's cache of past
    outcomes is keyed by both signatures and left out. *)
Definition filecmp_cmp (fs : gmap path node) (f1 f2 : path) : option bool :=
  match os_stat fs f1 with
  | None => None
  | Some n1 =>
      match os_stat fs f2 with
      | None => None
      | Some n2 =>
          let s1 := _sig n1 in
          let s2 := _sig n2 in
          if negb (bool_decide (s1.1.1 = S_IFREG))
             || negb (bool_decide (s2.1.1 = S_IFREG))
          then Some false
          else if bool_decide (s1 = s2) then Some true
          else if negb (bool_decide (s1.1.2 = s2.1.2)) then Some false
          else Some (_do_cmp n1 n2)
      end
  end.

(* ===================================================================== *)
(** ** Effects: world, exceptions, and the monad of methods *)
(* ===================================================================== *)

(** A Python object as far as [SystemExit.code] is compared:
    [sys.exit()] gives [None], [sys.exit(n)] an integer, [sys.exit(msg)] a
    string. *)
Inductive pyobj :=
| PyNone
| PyInt (z : Z)
| PyStr (s : string).

#[global] Instance pyobj_eq_dec : EqDecision pyobj.
Proof. solve_decision. Defined.

Inductive exn :=
| OSError
| AttributeError
| SystemExit (code : pyobj).

(** Calls that reach a collaborator: the file actions and the difference
    rendering of the base class, and [logger.debug]. *)
Inductive event :=
| EvRemove (p : path)
| EvOverwrite (src dst : path)
| EvShowDiff (a b : path)
| EvDebug (msg : string).

Record world := World {
  fs : gmap path node;
  trace : list event
}.

Inductive outcome (A : Type) :=
| Return (a : A)
| Raise (e : exn).
Arguments Return {A} a.
Arguments Raise {A} e.

(** A method body: it runs in a world, returns or raises, and leaves a
    world behind in both cases. *)
Definition M (A : Type) : Type := world → outcome A * world.

#[global] Instance M_ret : MRet M := λ A a w, (Return a, w).

#[global] Instance M_bind : MBind M := λ A B f m w,
  match m w with
  | (Return a, w') => f a w'
  | (Raise e, w') => (Raise e, w')
  end.

Definition raise {A} (e : exn) : M A := λ w, (Raise e, w).

Definition get_fs : M (gmap path node) := λ w, (Return (fs w), w).

Definition set_fs (f : gmap path node) : M unit :=
  λ w, (Return tt, World f (trace w)).

Definition emit (e : event) : M unit :=
  λ w, (Return tt, World (fs w) (trace w ++ [e])).

(** [try: body / except SystemExit as e: handler(e.code)]. *)
Definition try_except_SystemExit {A} (body : M A) (handler : pyobj → M A) : M A :=
  λ w,
    match body w with
    | (Raise (SystemExit code), w') => handler code w'
    | r => r
    end.

Definition logger_debug (msg : string) : M unit := emit (EvDebug msg).

(** Truth value of an attribute holding [None] or a string. *)
Definition py_not (v : option string) : bool :=
  match v with
  | None => true
  | Some s => bool_decide (s = "")
  end.

(** [v == 'lit'] for such an attribute. *)
Definition py_eq (v : option string) (lit : string) : bool :=
  bool_decide (v = Some lit).

(* ===================================================================== *)
(** ** class UnattendedRpmConf(rpmconf.RpmConf) *)
(* ===================================================================== *)

Module UnattendedRpmConf.

(** The instance: [packages] and [frontend] are the keyword arguments the
    base constructor keeps, [unattended] the one this class pops. *)
Record t := Build {
  packages : list string;
  frontend : option string;
  unattended : option string
}.

(** [__init__(self, *args, **kwargs)] as the plugin calls it, with the
    three keywords [packages], [frontend], [unattended]. *)
Definition __init__ (packages : list string) (frontend unattended : option string) : t :=
  Build packages frontend unattended.

(** What the class inherits from [rpmconf.RpmConf] and does not override
    away: the interactive handlers reached through [super()], and [run],
    which dispatches each discovered pair to the handlers of the instance
    it runs on (passed here as its two last arguments). *)
Class Super := {
  super_handle_rpmnew : t → path → path → M unit;
  super_handle_rpmsave : t → path → path → M unit;
  super_run : t → (path → path → M unit) → (path → path → M unit) → M unit
}.

(** Modelled from the spec: [is_broken_symlink] of the base class, "a
    symbolic link whose target does not exist". *)
Definition is_broken_symlink (fs : gmap path node) (p : path) : bool :=
  islink fs p && negb (exists_ fs p).

(** Modelled from the spec: the primitive Remove(path) of the base class,
    "deletes path; idempotent". *)
Definition _remove (p : path) : M unit :=
  f ← get_fs;
  _ ← emit (EvRemove p);
  set_fs (delete p f).

(** Modelled from the spec: the primitive Overwrite of the base class,
    called as [_overwrite(src, dst)]: "target's content becomes source's
    content (a rename/replace of target's slot with source's data is
    acceptable; source file must not remain as a separate leftover
    afterward". A missing source is a file-system error, which
    propagates. *)
Definition _overwrite (src dst : path) : M unit :=
  f ← get_fs;
  _ ← emit (EvOverwrite src dst);
  match lstat f src with
  | None => raise OSError
  | Some n => set_fs (<[dst := n]> (delete src f))
  end.

(** Modelled from the spec: the primitive ShowDiff(a, b) of the base
    class, "renders a textual difference between a and b to the
    interactive frontend; makes no filesystem change". *)
Definition show_diff (a b : path) : M unit := emit (EvShowDiff a b).

Definition _test_duplicate (self : t) (conf_file other_file : path) : M bool :=
  f ← get_fs;
  if negb (is_broken_symlink f conf_file || is_broken_symlink f other_file)
  then
    match filecmp_cmp f conf_file other_file with
    | None => raise OSError
    | Some true => mret true
    | Some false => mret false
    end
  else mret false.

Section Handlers.
Context `{Super}.

Definition _handle_rpmnew (self : t) (conf_file other_file : path) : M unit :=
  dup ← _test_duplicate self conf_file other_file;
  if (dup : bool) then _remove other_file
  else if py_not (unattended self) then
    super_handle_rpmnew self conf_file other_file
  else if py_eq (unattended self) "diff" then
    show_diff conf_file other_file
  else if py_eq (unattended self) "maintainer" then
    _overwrite other_file conf_file
  else if py_eq (unattended self) "user" then
    _remove other_file
  else mret tt.

Definition _handle_rpmsave (self : t) (conf_file other_file : path) : M unit :=
  dup ← _test_duplicate self conf_file other_file;
  if (dup : bool) then _remove other_file
  else if py_not (unattended self) then
    super_handle_rpmsave self conf_file other_file
  else if py_eq (unattended self) "diff" then
    show_diff other_file conf_file
  else if py_eq (unattended self) "maintainer" then
    _remove other_file
  else if py_eq (unattended self) "user" then
    _overwrite other_file conf_file
  else mret tt.

(** [run] is inherited; on this class it dispatches to the two handlers
    above. *)
Definition run (self : t) : M unit :=
  super_run self (_handle_rpmnew self) (_handle_rpmsave self).

End Handlers.

End UnattendedRpmConf.

(* ===================================================================== *)
(** ** The host: what the plugin reads from [dnf] and [sys] *)
(* ===================================================================== *)

Module dnf.

(** A package of the transaction; the plugin reads its name only. *)
Record Package := { name : string }.

(** An item of [base.transaction] with the result of its [installs()]. *)
Record TransItem := { installs : list Package }.

(** A parsed configuration file: section, then option, then value. *)
Abbreviation ConfigParser := (gmap string (gmap string string)).

Definition has_option (c : ConfigParser) (section opt : string) : bool :=
  bool_decide (is_Some (c !! section ≫= λ s, s !! opt)).

Definition get (c : ConfigParser) (section opt : string) : option string :=
  c !! section ≫= λ s, s !! opt.

(** [base.conf]: the two assume flags, and the plugin's own configuration
    file as [Plugin.read_config] parses it. *)
Record Conf := {
  assumeyes : bool;
  assumeno : bool;
  read_config : ConfigParser
}.

Record Base := {
  conf : Conf;
  transaction : list TransItem
}.

End dnf.

Module sys.
(** [sys.stdin] is [None] or a stream that answers [isatty()]. *)
Record TextIO := { isatty : bool }.
End sys.

Module errno.
Definition ENOENT : Z := 2.
Definition EINTR : Z := 4.
End errno.

(* ===================================================================== *)
(** ** class Rpmconf(dnf.Plugin) *)
(* ===================================================================== *)

Module Rpmconf.

(** The plugin instance. [_interactive] is not set by [__init__]: it is
    [None] here until [config] has run, and reading it then raises
    [AttributeError]. *)
Record t := Build {
  base : dnf.Base;
  packages : list string;
  frontend : option string;
  unattended : option string;
  _interactive : option bool
}.

Definition __init__ (base : dnf.Base) : t :=
  Build base [] None None None.

Definition config (stdin : option sys.TextIO) (self : t) : t :=
  let interactive :=
    if (match stdin with
        | None => true
        | Some s => negb (sys.isatty s)
        end)
       || dnf.assumeyes (dnf.conf (base self))
       || dnf.assumeno (dnf.conf (base self))
    then false else true in
  let conf := dnf.read_config (dnf.conf (base self)) in
  let frontend :=
    if dnf.has_option conf "main" "frontend"
    then dnf.get conf "main" "frontend"
    else None in
  let unattended :=
    if dnf.has_option conf "main" "unattended" then
      let v := dnf.get conf "main" "unattended" in
      if negb (py_eq v "diff" || py_eq v "maintainer" || py_eq v "user")
      then None else v
    else None in
  Build (base self) (packages self) frontend unattended (Some interactive).

(** The inner loop of [resolved]: one debug message and one append per
    package. *)
Fixpoint resolved_packages (pkgs : list dnf.Package) (self : t) : M t :=
  match pkgs with
  | [] => mret self
  | pkg :: rest =>
      _ ← logger_debug ("Adding '" ++ dnf.name pkg
                        ++ "' to list of handling packages for rpmconf");
      resolved_packages rest
        (Build (base self) (packages self ++ [dnf.name pkg])
               (frontend self) (unattended self) (_interactive self))
  end.

(** The outer loop of [resolved], over the collected [installs()]. *)
Fixpoint resolved_tmp (tmp : list (list dnf.Package)) (self : t) : M t :=
  match tmp with
  | [] => mret self
  | pkgs :: rest =>
      self' ← resolved_packages pkgs self;
      resolved_tmp rest self'
  end.

Definition resolved (self : t) : M t :=
  match _interactive self with
  | None => raise AttributeError
  | Some interactive =>
      if negb interactive then mret self
      else
        let tmp := map dnf.installs (dnf.transaction (base self)) in
        resolved_tmp tmp self
  end.

Section Transaction.
Context `{UnattendedRpmConf.Super}.

(** The [except SystemExit as e] clause of [transaction]. *)
Definition on_SystemExit (code : pyobj) : M unit :=
  if bool_decide (code = PyInt errno.ENOENT) then
    logger_debug "ignoring sys.exit from rpmconf due to missing MERGE variable"
  else if bool_decide (code = PyInt errno.EINTR) then
    logger_debug "ignoring sys.exit from rpmconf due to missing file"
  else mret tt.

Definition transaction (self : t) : M unit :=
  match _interactive self with
  | None => raise AttributeError
  | Some interactive =>
      if py_not (unattended self) && negb interactive then
        logger_debug ("rpmconf plugin will not run in non-interactive mode "
                      ++ "without `unattended` turned on")
      else
        let rconf :=
          UnattendedRpmConf.__init__
            (packages self) (frontend self) (unattended self) in
        try_except_SystemExit (UnattendedRpmConf.run rconf) on_SystemExit
  end.

End Transaction.

End Rpmconf.

(* ===================================================================== *)
(** ** Concrete collaborators and worlds, for running the model *)
(* ===================================================================== *)

Module Examples.
Import UnattendedRpmConf.

Inductive variant := rpmnew | rpmsave.

(** One run of a base class over the pairs it discovered, in order. *)
Fixpoint dispatch (pairs : list (variant * path * path))
    (on_new on_save : path → path → M unit) : M unit :=
  match pairs with
  | [] => mret tt
  | (rpmnew, c, o) :: rest => _ ← on_new c o; dispatch rest on_new on_save
  | (rpmsave, c, o) :: rest => _ ← on_save c o; dispatch rest on_new on_save
  end.

(** A base class whose [run] handles the given pairs and then, when a
    code is given, calls [sys.exit(code)]; its interactive handlers only
    render the difference. *)
Definition scripted (pairs : list (variant * path * path))
    (exit : option pyobj) : Super := {|
  super_handle_rpmnew := λ _ c o, show_diff c o;
  super_handle_rpmsave := λ _ c o, show_diff o c;
  super_run := λ _ on_new on_save,
    _ ← dispatch pairs on_new on_save;
    match exit with
    | Some code => raise (SystemExit code)
    | None => mret tt
    end
|}.

Definition b (s : string) : bytes := String.list_byte_of_string s.

(** An edited configuration file next to the maintainer's new version. *)
Definition fs_edited : gmap path node :=
  {[ "/etc/app.conf" := Regular (b "port=8080") 100;
     "/etc/app.conf.rpmnew" := Regular (b "port=80") 200 ]}.

(** The same content on both sides, written at different times. *)
Definition fs_same : gmap path node :=
  {[ "/etc/app.conf" := Regular (b "port=80") 100;
     "/etc/app.conf.rpmsave" := Regular (b "port=80") 200 ]}.

(** Two different contents of one length, installed with one timestamp. *)
Definition fs_same_sig : gmap path node :=
  {[ "/etc/app.conf" := Regular (b "port=8080") 100;
     "/etc/app.conf.rpmnew" := Regular (b "port=9090") 100 ]}.

(** The variant is a link to a file that is not there. *)
Definition fs_dangling : gmap path node :=
  {[ "/etc/app.conf" := Regular (b "port=80") 100;
     "/etc/app.conf.rpmnew" := Symlink "/usr/share/app/app.conf" ]}.

Definition world_of (f : gmap path node) : world := World f [].

Definition conf_file : path := "/etc/app.conf".
Definition new_file : path := "/etc/app.conf.rpmnew".
Definition save_file : path := "/etc/app.conf.rpmsave".

Definition w_edited : world := world_of fs_edited.
Definition w_same : world := world_of fs_same.
Definition w_same_sig : world := world_of fs_same_sig.
Definition w_dangling : world := world_of fs_dangling.

Definition engine (mode : option string) : UnattendedRpmConf.t :=
  UnattendedRpmConf.__init__ ["app"] None mode.

Definition host (yes no : bool) (unattended : option string) : dnf.Base := {|
  dnf.conf := {|
    dnf.assumeyes := yes;
    dnf.assumeno := no;
    dnf.read_config :=
      match unattended with
      | Some v => {[ "main" := {[ "unattended" := v ]} ]}
      | None => ∅
      end
  |};
  dnf.transaction :=
    [ {| dnf.installs := [ {| dnf.name := "app" |}; {| dnf.name := "lib" |} ] |} ]
|}.

Definition tty : option sys.TextIO := Some {| sys.isatty := true |}.
Definition pipe : option sys.TextIO := Some {| sys.isatty := false |}.

(** Plugins after [__init__] and [config]: on a pipe with and without an
    unattended mode, and on a terminal under assume-yes. *)
Definition plugin_piped (unattended : option string) : Rpmconf.t :=
  Rpmconf.config pipe (Rpmconf.__init__ (host false false unattended)).

End Examples.

(** [open(p, 'rb').read()]: the bytes behind a path, links followed; a
    missing path or a path that is not a regular file has none. *)
Definition read_bytes (fs : gmap path node) (p : path) : option bytes :=
  match os_stat fs p with
  | Some (Regular c _) => Some c
  | _ => None
  end.

(** A symbolic link whose target does not exist. *)
Definition dangling_symlink (fs : gmap path node) (p : path) : bool :=
  match lstat fs p with
  | Some (Symlink t) => negb (exists_ fs t)
  | _ => false
  end.

(** A third file beside the pair of [fs_edited]. *)
Definition fs_crowded : gmap path node :=
  <[ "/etc/hosts" := Regular (Examples.b "127.0.0.1 localhost") 50 ]>
    Examples.fs_edited.

Definition w_crowded : world := World fs_crowded [].

(** The names [resolved] walks over: every package of every [installs()],
    in the order of the transaction. *)
Definition installed_names (b0 : dnf.Base) : list string :=
  concat (map (λ item, map dnf.name (dnf.installs item)) (dnf.transaction b0)).

(** The message [resolved] logs for one package name. *)
Definition adding_message (n : string) : event :=
  EvDebug ("Adding '" ++ n ++ "' to list of handling packages for rpmconf").

(** The plugin with its package list replaced, all else kept. *)
Definition with_packages (self : Rpmconf.t) (l : list string) : Rpmconf.t :=
  Rpmconf.Build (Rpmconf.base self) l (Rpmconf.frontend self)
    (Rpmconf.unattended self) (Rpmconf._interactive self).

(* ===================================================================== *)
(** ** Following links *)
(* ===================================================================== *)

Section Follow.
Variable f : gmap path node.

Lemma follow_S n p x : follow n f p = Some x → follow (S n) f p = Some x.
Proof.
  revert p. induction n as [|n IH]; intros p; simpl.
  - destruct (f !! p) as [[]|]; done.
  - destruct (f !! p) as [[c m|t|sz m]|] eqn:E; try done.
    intros Hn. specialize (IH t Hn). simpl in IH. by rewrite IH.
Qed.

Lemma follow_None_pred n p : follow (S n) f p = None → follow n f p = None.
Proof.
  intros HS. destruct (follow n f p) as [x|] eqn:E; [|done].
  apply follow_S in E. congruence.
Qed.

Lemma follow_link n p t :
  f !! p = Some (Symlink t) → follow (S n) f p = follow n f t.
Proof. intros E. simpl. by rewrite E. Qed.

Lemma follow_not_link n p x : follow n f p = Some x → ∀ t, x ≠ Symlink t.
Proof.
  revert p. induction n as [|n IH]; intros p; simpl.
  - destruct (f !! p) as [[]|]; intros; simplify_eq; done.
  - destruct (f !! p) as [[]|]; intros; simplify_eq; eauto.
Qed.

(** A link whose target cannot be reached cannot be reached itself. *)
Lemma dangling_is_broken p :
  dangling_symlink f p = true → UnattendedRpmConf.is_broken_symlink f p = true.
Proof.
  unfold dangling_symlink, UnattendedRpmConf.is_broken_symlink, islink, lstat.
  destruct (f !! p) as [[c m|t|sz m]|] eqn:E; try done.
  simpl. unfold exists_, os_stat, MAXSYMLINKS.
  rewrite (follow_link _ p t E).
  intros Ht. apply negb_true_iff, bool_decide_eq_false in Ht.
  apply negb_true_iff, bool_decide_eq_false. intros [x Hx].
  apply Ht. exists x. by apply follow_S.
Qed.

(** A path that is there and is not a broken link can be stat'ed. *)
Lemma not_broken_stat p :
  UnattendedRpmConf.is_broken_symlink f p = false →
  is_Some (f !! p) → is_Some (os_stat f p).
Proof.
  unfold UnattendedRpmConf.is_broken_symlink, islink, lstat, exists_.
  intros Hb [n Hn]. rewrite Hn in Hb.
  destruct n as [c m|t|sz m]; simpl in Hb.
  - unfold os_stat, MAXSYMLINKS. simpl. rewrite Hn. eauto.
  - apply negb_false_iff, bool_decide_eq_true in Hb. done.
  - unfold os_stat, MAXSYMLINKS. simpl. rewrite Hn. eauto.
Qed.

End Follow.

(* ===================================================================== *)
(** ** The duplicate detector *)
(* ===================================================================== *)

Section Duplicate.
Import UnattendedRpmConf.
Variable self : UnattendedRpmConf.t.

(** The test reads the file system and changes nothing, also when it
    raises. *)
Lemma test_duplicate_world w conf other :
  (_test_duplicate self conf other w).2 = w.
Proof.
  unfold _test_duplicate, mbind, M_bind, get_fs; simpl.
  destruct (negb _); [|done].
  destruct (filecmp_cmp _ _ _) as [[]|]; done.
Qed.

Lemma test_duplicate_eq w conf other d :
  (_test_duplicate self conf other w).1 = Return d →
  _test_duplicate self conf other w = (Return d, w).
Proof.
  intros Hd. rewrite <- (test_duplicate_world w conf other) at 2.
  rewrite <- Hd. by destruct (_test_duplicate self conf other w).
Qed.

(** With a broken link on either side the comparison is not even tried. *)
Lemma test_duplicate_broken w conf other :
  is_broken_symlink (fs w) conf || is_broken_symlink (fs w) other = true →
  _test_duplicate self conf other w = (Return false, w).
Proof.
  intros Hb. unfold _test_duplicate, mbind, M_bind, get_fs; simpl.
  by rewrite Hb.
Qed.

(** What [filecmp.cmp] answers on two paths it can stat. *)
Lemma filecmp_cmp_true f a b :
  filecmp_cmp f a b = Some true ↔
  ∃ c1 t1 c2 t2,
    os_stat f a = Some (Regular c1 t1) ∧ os_stat f b = Some (Regular c2 t2) ∧
    (c1 = c2 ∨ (length c1 = length c2 ∧ t1 = t2)).
Proof.
  unfold filecmp_cmp. split.
  - destruct (os_stat f a) as [[c1 t1|l1|s1 m1]|]; try done;
      destruct (os_stat f b) as [[c2 t2|l2|s2 m2]|]; try done; simpl.
    intros Hcmp. exists c1, t1, c2, t2. do 2 (split; [done|]).
    case_bool_decide as Hsig.
    + right. inversion Hsig. split; [lia | done].
    + case_bool_decide as Hsz; simpl in Hcmp; [|done].
      left. inversion Hcmp as [Hc]. by apply bool_decide_eq_true in Hc.
  - intros (c1 & t1 & c2 & t2 & -> & -> & Hsame). simpl.
    case_bool_decide as Hsig; [done|].
    destruct Hsame as [->|[Hl ->]].
    + rewrite bool_decide_eq_true_2 by done. simpl.
      by rewrite bool_decide_eq_true_2.
    + rewrite Hl in Hsig. done.
Qed.

(** C6. If at least one of the two paths is a symbolic link whose target
    does not exist, [_test_duplicate] returns [False], whatever the bytes
    behind the two paths are; the world is left as it was. *)
Theorem test_duplicate_dangling_symlink_false w conf other :
  dangling_symlink (fs w) conf = true ∨ dangling_symlink (fs w) other = true →
  _test_duplicate self conf other w = (Return false, w).
Proof.
  intros Hd. apply test_duplicate_broken. apply orb_true_iff.
  destruct Hd as [Hd|Hd]; [left|right]; by apply dangling_is_broken.
Qed.

(** C5, as amended. For every pair of paths of which neither is a broken
    symbolic link, [_test_duplicate] returns [True] if and only if both
    paths lead to regular files that have equal bytes, or equal length and
    equal modification time. *)
Theorem test_duplicate_true_iff w conf other :
  is_broken_symlink (fs w) conf = false →
  is_broken_symlink (fs w) other = false →
  _test_duplicate self conf other w = (Return true, w) ↔
  ∃ c1 t1 c2 t2,
    os_stat (fs w) conf = Some (Regular c1 t1) ∧
    os_stat (fs w) other = Some (Regular c2 t2) ∧
    (c1 = c2 ∨ (length c1 = length c2 ∧ t1 = t2)).
Proof.
  intros Hc Ho. rewrite <- filecmp_cmp_true.
  unfold _test_duplicate, mbind, M_bind, get_fs, mret, M_ret, raise; simpl.
  rewrite Hc, Ho; simpl.
  destruct (filecmp_cmp _ _ _) as [[]|]; split; congruence.
Qed.

End Duplicate.

(* ===================================================================== *)
(** ** The policy resolver: [_handle_rpmnew] and [_handle_rpmsave] *)
(* ===================================================================== *)

Section Policy.
Import UnattendedRpmConf.
Context `{Super}.
Variable self : UnattendedRpmConf.t.

Lemma handle_rpmnew_duplicate w conf other :
  (_test_duplicate self conf other w).1 = Return true →
  _handle_rpmnew self conf other w = _remove other w.
Proof.
  intros Hd. apply test_duplicate_eq in Hd.
  unfold _handle_rpmnew, mbind at 1, M_bind at 1. by rewrite Hd.
Qed.

Lemma handle_rpmsave_duplicate w conf other :
  (_test_duplicate self conf other w).1 = Return true →
  _handle_rpmsave self conf other w = _remove other w.
Proof.
  intros Hd. apply test_duplicate_eq in Hd.
  unfold _handle_rpmsave, mbind at 1, M_bind at 1. by rewrite Hd.
Qed.

Lemma handle_rpmnew_policy w conf other :
  (_test_duplicate self conf other w).1 = Return false →
  _handle_rpmnew self conf other w =
    (if py_not (unattended self) then super_handle_rpmnew self conf other
     else if py_eq (unattended self) "diff" then show_diff conf other
     else if py_eq (unattended self) "maintainer" then _overwrite other conf
     else if py_eq (unattended self) "user" then _remove other
     else mret tt) w.
Proof.
  intros Hd. apply test_duplicate_eq in Hd.
  unfold _handle_rpmnew, mbind at 1, M_bind at 1. by rewrite Hd.
Qed.

Lemma handle_rpmsave_policy w conf other :
  (_test_duplicate self conf other w).1 = Return false →
  _handle_rpmsave self conf other w =
    (if py_not (unattended self) then super_handle_rpmsave self conf other
     else if py_eq (unattended self) "diff" then show_diff other conf
     else if py_eq (unattended self) "maintainer" then _remove other
     else if py_eq (unattended self) "user" then _overwrite other conf
     else mret tt) w.
Proof.
  intros Hd. apply test_duplicate_eq in Hd.
  unfold _handle_rpmsave, mbind at 1, M_bind at 1. by rewrite Hd.
Qed.

Lemma remove_run w p :
  _remove p w = (Return tt, World (delete p (fs w)) (trace w ++ [EvRemove p])).
Proof. reflexivity. Qed.

Lemma overwrite_run w src dst n :
  fs w !! src = Some n →
  _overwrite src dst w =
    (Return tt,
     World (<[dst := n]> (delete src (fs w))) (trace w ++ [EvOverwrite src dst])).
Proof.
  intros Hn. unfold _overwrite, mbind, M_bind, get_fs, emit, lstat; simpl.
  by rewrite Hn.
Qed.

Lemma show_diff_run w a b' :
  show_diff a b' w = (Return tt, World (fs w) (trace w ++ [EvShowDiff a b'])).
Proof. reflexivity. Qed.

(** C4. For a pair judged duplicate, both handlers, in every mode and
    with every base class, remove [other_file] and do nothing else: the
    only call is that removal (no difference is rendered, the interactive
    handler of the base class is not entered), and every path but
    [other_file], [conf_file] among them, keeps what it had. *)
Theorem duplicate_pair_only_removes_other w conf other :
  (_test_duplicate self conf other w).1 = Return true →
  _handle_rpmnew self conf other w =
    (Return tt, World (delete other (fs w)) (trace w ++ [EvRemove other])) ∧
  _handle_rpmsave self conf other w =
    (Return tt, World (delete other (fs w)) (trace w ++ [EvRemove other])) ∧
  delete other (fs w) !! other = None ∧
  (∀ p, p ≠ other → delete other (fs w) !! p = fs w !! p).
Proof.
  intros Hd. repeat split.
  - by rewrite (handle_rpmnew_duplicate _ _ _ Hd).
  - by rewrite (handle_rpmsave_duplicate _ _ _ Hd).
  - apply lookup_delete_eq.
  - intros p Hp. by apply lookup_delete_ne.
Qed.

(** C7. In mode [diff], for a pair that is not a duplicate, the file
    system is left exactly as it was and the one call made is a rendering
    of the difference: of ([conf_file], [other_file]) for an rpmnew pair,
    of ([other_file], [conf_file]) for an rpmsave pair. *)
Theorem diff_mode_renders_once_and_keeps_files w conf other :
  unattended self = Some "diff" →
  (_test_duplicate self conf other w).1 = Return false →
  _handle_rpmnew self conf other w =
    (Return tt, World (fs w) (trace w ++ [EvShowDiff conf other])) ∧
  _handle_rpmsave self conf other w =
    (Return tt, World (fs w) (trace w ++ [EvShowDiff other conf])).
Proof.
  intros Hm Hd. split.
  - rewrite (handle_rpmnew_policy _ _ _ Hd). by rewrite Hm.
  - rewrite (handle_rpmsave_policy _ _ _ Hd). by rewrite Hm.
Qed.

(** C2. In mode [maintainer], for a pair (conf = A, other = B) of two
    paths that is not a duplicate, with B present: the rpmnew handler puts
    what B held into A's slot and B is gone; the rpmsave handler leaves A
    as it was and B is gone. Neither touches any third path. *)
Theorem maintainer_mode_favours_package_file w conf other n :
  unattended self = Some "maintainer" →
  (_test_duplicate self conf other w).1 = Return false →
  conf ≠ other →
  fs w !! other = Some n →
  (∃ w', _handle_rpmnew self conf other w = (Return tt, w') ∧
         fs w' !! conf = Some n ∧ fs w' !! other = None ∧
         (∀ p, p ≠ conf → p ≠ other → fs w' !! p = fs w !! p) ∧
         trace w' = (trace w ++ [EvOverwrite other conf])%list) ∧
  (∃ w', _handle_rpmsave self conf other w = (Return tt, w') ∧
         fs w' !! conf = fs w !! conf ∧ fs w' !! other = None ∧
         (∀ p, p ≠ other → fs w' !! p = fs w !! p) ∧
         trace w' = (trace w ++ [EvRemove other])%list).
Proof.
  intros Hm Hd Hne Hn. split.
  - eexists. rewrite (handle_rpmnew_policy _ _ _ Hd).
    rewrite Hm. simpl. rewrite (overwrite_run _ _ _ _ Hn).
    repeat split; simpl.
    + apply lookup_insert_eq.
    + rewrite lookup_insert_ne by done. apply lookup_delete_eq.
    + intros p Hpc Hpo. rewrite lookup_insert_ne by done.
      by apply lookup_delete_ne.
  - eexists. rewrite (handle_rpmsave_policy _ _ _ Hd).
    rewrite Hm. simpl. rewrite remove_run. repeat split; simpl.
    + by apply lookup_delete_ne.
    + apply lookup_delete_eq.
    + intros p Hpo. by apply lookup_delete_ne.
Qed.

(** C3. In mode [user], for a pair (conf = A, other = B) of two paths
    that is not a duplicate, with B present: the rpmnew handler leaves A
    as it was and B is gone; the rpmsave handler puts what B held into A's
    slot and B is gone. The two file actions are those of mode
    [maintainer] with the variant kinds exchanged. *)
Theorem user_mode_favours_active_file w conf other n :
  unattended self = Some "user" →
  (_test_duplicate self conf other w).1 = Return false →
  conf ≠ other →
  fs w !! other = Some n →
  (∃ w', _handle_rpmnew self conf other w = (Return tt, w') ∧
         fs w' !! conf = fs w !! conf ∧ fs w' !! other = None ∧
         (∀ p, p ≠ other → fs w' !! p = fs w !! p) ∧
         trace w' = (trace w ++ [EvRemove other])%list) ∧
  (∃ w', _handle_rpmsave self conf other w = (Return tt, w') ∧
         fs w' !! conf = Some n ∧ fs w' !! other = None ∧
         (∀ p, p ≠ conf → p ≠ other → fs w' !! p = fs w !! p) ∧
         trace w' = (trace w ++ [EvOverwrite other conf])%list).
Proof.
  intros Hm Hd Hne Hn. split.
  - eexists. rewrite (handle_rpmnew_policy _ _ _ Hd).
    rewrite Hm. simpl. rewrite remove_run. repeat split; simpl.
    + by apply lookup_delete_ne.
    + apply lookup_delete_eq.
    + intros p Hpo. by apply lookup_delete_ne.
  - eexists. rewrite (handle_rpmsave_policy _ _ _ Hd).
    rewrite Hm. simpl. rewrite (overwrite_run _ _ _ _ Hn).
    repeat split; simpl.
    + apply lookup_insert_eq.
    + rewrite lookup_insert_ne by done. apply lookup_delete_eq.
    + intros p Hpc Hpo. rewrite lookup_insert_ne by done.
      by apply lookup_delete_ne.
Qed.

End Policy.

(* ===================================================================== *)
(** ** The session controller: [config], [resolved], [transaction] *)
(* ===================================================================== *)

Section Session.
Import Rpmconf.
Context `{UnattendedRpmConf.Super}.

(** The validation of [config], as one equation. *)
Lemma config_unattended stdin self :
  unattended (config stdin self) =
    match dnf.get (dnf.read_config (dnf.conf (base self))) "main" "unattended" with
    | Some s =>
        if bool_decide (s ∈ ["diff"; "maintainer"; "user"]) then Some s else None
    | None => None
    end.
Proof.
  unfold config, dnf.has_option, dnf.get; simpl.
  destruct (_ ≫= _) as [s|]; simpl.
  - unfold py_eq.
    destruct (decide (s ∈ ["diff"; "maintainer"; "user"])) as [Hin|Hout].
    + rewrite (bool_decide_eq_true_2 _ Hin).
      rewrite !elem_of_cons, elem_of_nil in Hin.
      destruct Hin as [->|[->|[->|[]]]]; reflexivity.
    + rewrite (bool_decide_eq_false_2 _ Hout).
      rewrite !elem_of_cons, elem_of_nil in Hout.
      rewrite !bool_decide_eq_false_2; [done|..]; intros [= ->]; tauto.
  - done.
Qed.

(** C9. After [config], the plugin's [unattended] is one of [diff],
    [maintainer], [user] exactly when option [unattended] of section
    [main] of the plugin's configuration holds that very string; it is
    never anything else, and every other value, like an absent option,
    leaves it [None]. [config] is a total function: it raises nothing. *)
Theorem config_unattended_validated stdin self :
  (∀ m, m ∈ ["diff"; "maintainer"; "user"] →
     unattended (config stdin self) = Some m ↔
     dnf.get (dnf.read_config (dnf.conf (base self))) "main" "unattended"
       = Some m) ∧
  (∀ m, unattended (config stdin self) = Some m →
     m ∈ ["diff"; "maintainer"; "user"]) ∧
  ((∀ m, dnf.get (dnf.read_config (dnf.conf (base self))) "main" "unattended"
           = Some m → m ∉ ["diff"; "maintainer"; "user"]) →
   unattended (config stdin self) = None).
Proof.
  rewrite config_unattended.
  set (v := dnf.get _ _ _). set (modes := ["diff"; "maintainer"; "user"]).
  destruct v as [s|]; [|repeat split; done].
  destruct (decide (s ∈ modes)) as [Hin|Hout].
  - rewrite (bool_decide_eq_true_2 _ Hin). repeat split; try done.
    + by intros m [= <-].
    + intros Hv. destruct (Hv s eq_refl Hin).
  - rewrite (bool_decide_eq_false_2 _ Hout). repeat split; try done.
    intros [= <-]. done.
Qed.

(** Without a terminal, or with an assume flag, [config] clears
    [_interactive]. *)
Lemma config_noninteractive stdin self :
  stdin = None ∨ (∃ s, stdin = Some s ∧ sys.isatty s = false)
  ∨ dnf.assumeyes (dnf.conf (base self)) = true
  ∨ dnf.assumeno (dnf.conf (base self)) = true →
  _interactive (config stdin self) = Some false.
Proof.
  intros Hni. unfold config; simpl. f_equal.
  destruct Hni as [->|[(s & -> & Hs)|[Hy|Hn]]].
  - done.
  - by rewrite Hs.
  - rewrite Hy. by rewrite orb_true_r.
  - rewrite Hn. by rewrite orb_true_r.
Qed.

Lemma config_packages stdin self : packages (config stdin self) = packages self.
Proof. reflexivity. Qed.

(** A non-interactive plugin returns from [resolved] at once. *)
Lemma resolved_noninteractive self w :
  _interactive self = Some false → resolved self w = (Return self, w).
Proof. intros Hi. unfold resolved. by rewrite Hi. Qed.

(** C8. With [unattended] unset and a non-interactive session,
    [transaction] logs one debug message and returns: whatever the base
    class is, no engine is run, the file system is as it was, nothing is
    rendered or asked, nothing is raised. *)
Theorem transaction_skips_interactive_policy_without_terminal self w :
  unattended self = None →
  _interactive self = Some false →
  transaction self w =
    (Return tt,
     World (fs w)
       (trace w ++ [EvDebug ("rpmconf plugin will not run in non-interactive "
                             ++ "mode without `unattended` turned on")])).
Proof. intros Hu Hi. unfold transaction. by rewrite Hu, Hi. Qed.

(** C10. In a non-interactive session (no stdin or stdin not a tty, or
    assume-yes, or assume-no) [resolved] returns the plugin as it got it,
    with no message logged, whatever the transaction holds; so after
    [__init__], [config] and [resolved] the package list is empty, and a
    [transaction] with [unattended] set runs an engine built with the
    empty package list. *)
Theorem noninteractive_session_tracks_no_packages b0 stdin w :
  stdin = None ∨ (∃ s, stdin = Some s ∧ sys.isatty s = false)
  ∨ dnf.assumeyes (dnf.conf b0) = true
  ∨ dnf.assumeno (dnf.conf b0) = true →
  resolved (config stdin (__init__ b0)) w
    = (Return (config stdin (__init__ b0)), w) ∧
  packages (config stdin (__init__ b0)) = [] ∧
  (py_not (unattended (config stdin (__init__ b0))) = false →
   ∀ w1, transaction (config stdin (__init__ b0)) w1 =
     try_except_SystemExit
       (UnattendedRpmConf.run
          (UnattendedRpmConf.__init__ []
             (frontend (config stdin (__init__ b0)))
             (unattended (config stdin (__init__ b0)))))
       on_SystemExit w1).
Proof.
  intros Hni. set (self := config stdin (__init__ b0)).
  assert (Hi : _interactive self = Some false)
    by (by apply config_noninteractive).
  repeat split.
  - by apply resolved_noninteractive.
  - intros Hu w1. unfold transaction. rewrite Hi, Hu. reflexivity.
Qed.

(** The two recognised codes are logged at debug level and go no
    further. *)
Lemma on_SystemExit_ENOENT w :
  on_SystemExit (PyInt errno.ENOENT) w =
    (Return tt,
     World (fs w)
       (trace w ++ [EvDebug "ignoring sys.exit from rpmconf due to missing MERGE variable"])).
Proof. reflexivity. Qed.

Lemma on_SystemExit_EINTR w :
  on_SystemExit (PyInt errno.EINTR) w =
    (Return tt,
     World (fs w)
       (trace w ++ [EvDebug "ignoring sys.exit from rpmconf due to missing file"])).
Proof. reflexivity. Qed.

(** Every other code falls out of the [except] clause as well, silently:
    the clause has no [else] that raises again. *)
Lemma on_SystemExit_other code w :
  code ≠ PyInt errno.ENOENT → code ≠ PyInt errno.EINTR →
  on_SystemExit code w = (Return tt, w).
Proof.
  intros H1 H2. unfold on_SystemExit.
  by rewrite !bool_decide_eq_false_2.
Qed.

(** No [SystemExit] of the run ever leaves [transaction]. *)
Lemma transaction_never_exits self w code :
  (transaction self w).1 ≠ Raise (SystemExit code).
Proof.
  unfold transaction. destruct (_interactive self) as [i|]; [|done].
  destruct (py_not _ && negb i); [done|].
  unfold try_except_SystemExit.
  destruct (UnattendedRpmConf.run _ w) as [[[]|[| |c]] w']; try done.
  unfold on_SystemExit. repeat case_bool_decide; done.
Qed.

End Session.

(** C1, at a run that ends in [sys.exit(1)]: the specification has every
    code but the two recognised ones propagate as a session failure, yet
    [transaction] returns normally, with nothing logged and the world as the
    run left it. *)
Theorem transaction_swallows_exit_code_1 :
  UnattendedRpmConf.run (H := Examples.scripted [] (Some (PyInt 1)))
    (UnattendedRpmConf.__init__ [] None (Some "user")) Examples.w_edited
    = (Raise (SystemExit (PyInt 1)), Examples.w_edited) ∧
  Rpmconf.transaction (H := Examples.scripted [] (Some (PyInt 1)))
    (Examples.plugin_piped (Some "user")) Examples.w_edited
    = (Return tt, Examples.w_edited).
Proof. split; reflexivity. Qed.

(* ===================================================================== *)
(** ** The theorems at concrete inputs *)
(* ===================================================================== *)

Section Runs.
Import UnattendedRpmConf Examples.

(** C5, as stated, fails: two regular files of one length and one
    modification time, neither a broken link, with different bytes, are
    judged duplicate. *)
Lemma test_duplicate_equal_signature_counterexample :
  is_broken_symlink (fs w_same_sig) conf_file = false ∧
  is_broken_symlink (fs w_same_sig) new_file = false ∧
  _test_duplicate (engine None) conf_file new_file w_same_sig
    = (Return true, w_same_sig) ∧
  read_bytes (fs w_same_sig) conf_file = Some (b "port=8080") ∧
  read_bytes (fs w_same_sig) new_file = Some (b "port=9090") ∧
  read_bytes (fs w_same_sig) conf_file ≠ read_bytes (fs w_same_sig) new_file.
Proof. vm_compute. repeat split; congruence. Qed.

Lemma test_duplicate_true_iff_witness :
  is_broken_symlink (fs w_same) conf_file = false ∧
  is_broken_symlink (fs w_same) save_file = false ∧
  (_test_duplicate (engine None) conf_file save_file w_same
     = (Return true, w_same) ↔
   ∃ c1 t1 c2 t2,
     os_stat (fs w_same) conf_file = Some (Regular c1 t1) ∧
     os_stat (fs w_same) save_file = Some (Regular c2 t2) ∧
     (c1 = c2 ∨ (length c1 = length c2 ∧ t1 = t2))).
Proof.
  split; [reflexivity|]. split; [reflexivity|].
  apply (test_duplicate_true_iff (engine None) w_same conf_file save_file);
    reflexivity.
Defined.

Lemma test_duplicate_dangling_symlink_false_witness :
  dangling_symlink (fs w_dangling) new_file = true ∧
  _test_duplicate (engine (Some "user")) conf_file new_file w_dangling
    = (Return false, w_dangling).
Proof.
  split; [reflexivity|].
  apply (test_duplicate_dangling_symlink_false (engine (Some "user"))
           w_dangling conf_file new_file).
  right. reflexivity.
Defined.

Lemma duplicate_pair_only_removes_other_witness :
  (_test_duplicate (engine (Some "diff")) conf_file save_file w_same).1
    = Return true ∧
  _handle_rpmnew (H := scripted [] None) (engine (Some "diff"))
      conf_file save_file w_same
    = (Return tt, World (delete save_file (fs w_same)) [EvRemove save_file]) ∧
  _handle_rpmsave (H := scripted [] None) (engine (Some "diff"))
      conf_file save_file w_same
    = (Return tt, World (delete save_file (fs w_same)) [EvRemove save_file]) ∧
  delete save_file (fs w_same) !! save_file = None ∧
  (∀ p, p ≠ save_file → delete save_file (fs w_same) !! p = fs w_same !! p).
Proof.
  split; [reflexivity|].
  apply (duplicate_pair_only_removes_other (H := scripted [] None)
           (engine (Some "diff")) w_same conf_file save_file).
  reflexivity.
Defined.

Lemma diff_mode_renders_once_and_keeps_files_witness :
  unattended (engine (Some "diff")) = Some "diff" ∧
  (_test_duplicate (engine (Some "diff")) conf_file new_file w_edited).1
    = Return false ∧
  _handle_rpmnew (H := scripted [] None) (engine (Some "diff"))
      conf_file new_file w_edited
    = (Return tt, World (fs w_edited) [EvShowDiff conf_file new_file]) ∧
  _handle_rpmsave (H := scripted [] None) (engine (Some "diff"))
      conf_file new_file w_edited
    = (Return tt, World (fs w_edited) [EvShowDiff new_file conf_file]).
Proof.
  split; [reflexivity|]. split; [reflexivity|].
  apply (diff_mode_renders_once_and_keeps_files (H := scripted [] None)
           (engine (Some "diff")) w_edited conf_file new_file); reflexivity.
Defined.

Lemma conf_file_new_file : conf_file ≠ new_file.
Proof. intros Heq. discriminate Heq. Defined.

Lemma maintainer_mode_favours_package_file_witness :
  unattended (engine (Some "maintainer")) = Some "maintainer" ∧
  (_test_duplicate (engine (Some "maintainer")) conf_file new_file w_edited).1
    = Return false ∧
  conf_file ≠ new_file ∧
  fs w_edited !! new_file = Some (Regular (b "port=80") 200) ∧
  (∃ w', _handle_rpmnew (H := scripted [] None) (engine (Some "maintainer"))
           conf_file new_file w_edited = (Return tt, w') ∧
         fs w' !! conf_file = Some (Regular (b "port=80") 200) ∧
         fs w' !! new_file = None ∧
         (∀ p, p ≠ conf_file → p ≠ new_file → fs w' !! p = fs w_edited !! p) ∧
         trace w' = (trace w_edited ++ [EvOverwrite new_file conf_file])%list) ∧
  (∃ w', _handle_rpmsave (H := scripted [] None) (engine (Some "maintainer"))
           conf_file new_file w_edited = (Return tt, w') ∧
         fs w' !! conf_file = fs w_edited !! conf_file ∧
         fs w' !! new_file = None ∧
         (∀ p, p ≠ new_file → fs w' !! p = fs w_edited !! p) ∧
         trace w' = (trace w_edited ++ [EvRemove new_file])%list).
Proof.
  split; [reflexivity|]. split; [reflexivity|].
  split; [exact conf_file_new_file|]. split; [reflexivity|].
  apply (maintainer_mode_favours_package_file (H := scripted [] None)
           (engine (Some "maintainer")) w_edited conf_file new_file
           (Regular (b "port=80") 200));
    [reflexivity | reflexivity | exact conf_file_new_file | reflexivity].
Defined.

Lemma user_mode_favours_active_file_witness :
  unattended (engine (Some "user")) = Some "user" ∧
  (_test_duplicate (engine (Some "user")) conf_file new_file w_edited).1
    = Return false ∧
  conf_file ≠ new_file ∧
  fs w_edited !! new_file = Some (Regular (b "port=80") 200) ∧
  (∃ w', _handle_rpmnew (H := scripted [] None) (engine (Some "user"))
           conf_file new_file w_edited = (Return tt, w') ∧
         fs w' !! conf_file = fs w_edited !! conf_file ∧
         fs w' !! new_file = None ∧
         (∀ p, p ≠ new_file → fs w' !! p = fs w_edited !! p) ∧
         trace w' = (trace w_edited ++ [EvRemove new_file])%list) ∧
  (∃ w', _handle_rpmsave (H := scripted [] None) (engine (Some "user"))
           conf_file new_file w_edited = (Return tt, w') ∧
         fs w' !! conf_file = Some (Regular (b "port=80") 200) ∧
         fs w' !! new_file = None ∧
         (∀ p, p ≠ conf_file → p ≠ new_file → fs w' !! p = fs w_edited !! p) ∧
         trace w' = (trace w_edited ++ [EvOverwrite new_file conf_file])%list).
Proof.
  split; [reflexivity|]. split; [reflexivity|].
  split; [exact conf_file_new_file|]. split; [reflexivity|].
  apply (user_mode_favours_active_file (H := scripted [] None)
           (engine (Some "user")) w_edited conf_file new_file
           (Regular (b "port=80") 200));
    [reflexivity | reflexivity | exact conf_file_new_file | reflexivity].
Defined.

Lemma user_is_a_mode : "user" ∈ ["diff"; "maintainer"; "user"].
Proof. do 2 apply list_elem_of_further. apply list_elem_of_here. Defined.

Lemma config_unattended_validated_witness :
  "user" ∈ ["diff"; "maintainer"; "user"] ∧
  (Rpmconf.unattended
     (Rpmconf.config tty (Rpmconf.__init__ (host false false (Some "user"))))
     = Some "user" ↔
   dnf.get (dnf.read_config (dnf.conf (host false false (Some "user"))))
     "main" "unattended" = Some "user").
Proof.
  split; [exact user_is_a_mode|].
  exact (proj1 (config_unattended_validated tty
                  (Rpmconf.__init__ (host false false (Some "user"))))
           "user" user_is_a_mode).
Defined.

Lemma transaction_skips_interactive_policy_without_terminal_witness :
  Rpmconf.unattended (plugin_piped None) = None ∧
  Rpmconf._interactive (plugin_piped None) = Some false ∧
  Rpmconf.transaction
    (H := scripted [(rpmnew, conf_file, new_file)] None)
    (plugin_piped None) w_edited =
    (Return tt,
     World (fs w_edited)
       [EvDebug ("rpmconf plugin will not run in non-interactive "
                 ++ "mode without `unattended` turned on")]).
Proof.
  split; [reflexivity|]. split; [reflexivity|].
  apply (transaction_skips_interactive_policy_without_terminal
           (H := scripted [(rpmnew, conf_file, new_file)] None)
           (plugin_piped None) w_edited);
    reflexivity.
Defined.

Lemma noninteractive_session_tracks_no_packages_witness :
  dnf.assumeyes (dnf.conf (host true false (Some "maintainer"))) = true ∧
  Rpmconf.resolved
    (Rpmconf.config tty (Rpmconf.__init__ (host true false (Some "maintainer"))))
    w_edited
    = (Return
         (Rpmconf.config tty
            (Rpmconf.__init__ (host true false (Some "maintainer")))),
       w_edited) ∧
  Rpmconf.packages
    (Rpmconf.config tty (Rpmconf.__init__ (host true false (Some "maintainer"))))
    = [] ∧
  Rpmconf.transaction (H := scripted [] None)
    (Rpmconf.config tty (Rpmconf.__init__ (host true false (Some "maintainer"))))
    w_edited =
    try_except_SystemExit
      (UnattendedRpmConf.run (H := scripted [] None)
         (UnattendedRpmConf.__init__ [] None (Some "maintainer")))
      Rpmconf.on_SystemExit w_edited.
Proof.
  split; [reflexivity|].
  destruct (noninteractive_session_tracks_no_packages (H := scripted [] None)
              (host true false (Some "maintainer")) tty w_edited)
    as (Hres & Hpk & Htx).
  { right. right. left. reflexivity. }
  split; [exact Hres|]. split; [exact Hpk|].
  apply Htx. reflexivity.
Defined.

End Runs.

(* ===================================================================== *)
(** ** Further properties of the duplicate test and the handlers *)
(* ===================================================================== *)

Section MorePolicy.
Import UnattendedRpmConf.
Context `{Super}.

Lemma filecmp_cmp_sym f a c : filecmp_cmp f a c = filecmp_cmp f c a.
Proof.
  unfold filecmp_cmp.
  destruct (os_stat f a) as [[c1 t1|l1|s1 m1]|];
    destruct (os_stat f c) as [[c2 t2|l2|s2 m2]|]; try reflexivity.
  simpl. repeat case_bool_decide; simplify_eq; simpl; try reflexivity;
    try congruence.
Qed.

(** X1. The duplicate test does not depend on the order of the two paths
    nor on the instance it is called on, and it leaves the world as it
    found it, whether it returns or raises. *)
Theorem test_duplicate_symmetric_and_pure (self self' : t) w a c :
  _test_duplicate self a c w = _test_duplicate self' c a w ∧
  (_test_duplicate self a c w).2 = w.
Proof.
  split; [|apply test_duplicate_world].
  unfold _test_duplicate, mbind, M_bind, get_fs; simpl.
  rewrite (orb_comm (is_broken_symlink (fs w) a)).
  by rewrite filecmp_cmp_sym.
Qed.

Lemma test_duplicate_missing (self : t) w conf other :
  is_broken_symlink (fs w) conf = false →
  is_broken_symlink (fs w) other = false →
  os_stat (fs w) conf = None ∨ os_stat (fs w) other = None →
  _test_duplicate self conf other w = (Raise OSError, w).
Proof.
  intros Hc Ho Hmiss.
  unfold _test_duplicate, mbind, M_bind, get_fs; simpl.
  rewrite Hc, Ho; simpl. unfold filecmp_cmp.
  destruct Hmiss as [->| Hm]; [done|].
  rewrite Hm. by destruct (os_stat (fs w) conf).
Qed.

(** X2. If one of the two paths cannot be stat'ed and neither is a broken
    symbolic link (a path that is not there at all), both handlers raise
    [OSError] in every mode, before any file action, rendering or prompt:
    the world is as it was. *)
Theorem handlers_raise_on_missing_path (self : t) w conf other :
  is_broken_symlink (fs w) conf = false →
  is_broken_symlink (fs w) other = false →
  os_stat (fs w) conf = None ∨ os_stat (fs w) other = None →
  _handle_rpmnew self conf other w = (Raise OSError, w) ∧
  _handle_rpmsave self conf other w = (Raise OSError, w).
Proof.
  intros Hc Ho Hmiss.
  pose proof (test_duplicate_missing self w conf other Hc Ho Hmiss) as Ht.
  split.
  - unfold _handle_rpmnew, mbind at 1, M_bind at 1. by rewrite Ht.
  - unfold _handle_rpmsave, mbind at 1, M_bind at 1. by rewrite Ht.
Qed.

(** X3. With [unattended] unset or the empty string, a pair that is not a
    duplicate goes to the handler of the base class, and to nothing else:
    each handler does exactly what the inherited one does. *)
Theorem falsy_mode_defers_to_base_handler (self : t) w conf other :
  py_not (unattended self) = true →
  (_test_duplicate self conf other w).1 = Return false →
  _handle_rpmnew self conf other w = super_handle_rpmnew self conf other w ∧
  _handle_rpmsave self conf other w = super_handle_rpmsave self conf other w.
Proof.
  intros Hu Hd. split.
  - rewrite (handle_rpmnew_policy _ _ _ _ Hd). by rewrite Hu.
  - rewrite (handle_rpmsave_policy _ _ _ _ Hd). by rewrite Hu.
Qed.

(** X4. With a non-empty [unattended] that is none of [diff],
    [maintainer], [user], a pair that is not a duplicate is left alone: both
    handlers return with the world unchanged, the variant file stays. *)
Theorem unknown_mode_does_nothing (self : t) w conf other :
  py_not (unattended self) = false →
  unattended self ≠ Some "diff" →
  unattended self ≠ Some "maintainer" →
  unattended self ≠ Some "user" →
  (_test_duplicate self conf other w).1 = Return false →
  _handle_rpmnew self conf other w = (Return tt, w) ∧
  _handle_rpmsave self conf other w = (Return tt, w).
Proof.
  intros Hu Hd Hm Hus Hdup. split.
  - rewrite (handle_rpmnew_policy _ _ _ _ Hdup). rewrite Hu. unfold py_eq.
    by rewrite !bool_decide_eq_false_2.
  - rewrite (handle_rpmsave_policy _ _ _ _ Hdup). rewrite Hu. unfold py_eq.
    by rewrite !bool_decide_eq_false_2.
Qed.

Lemma handlers_raise_with_test (self : t) w conf other e :
  (_test_duplicate self conf other w).1 = Raise e →
  _handle_rpmnew self conf other w = (Raise e, w) ∧
  _handle_rpmsave self conf other w = (Raise e, w).
Proof.
  intros He.
  pose proof (test_duplicate_world self w conf other) as Hw.
  destruct (_test_duplicate self conf other w) as [r w0] eqn:Et.
  simpl in *. subst. split.
  - unfold _handle_rpmnew, mbind at 1, M_bind at 1. by rewrite Et.
  - unfold _handle_rpmsave, mbind at 1, M_bind at 1. by rewrite Et.
Qed.

(** What a handler leaves of the file system, given that its policy runs
    without the base class: every branch is a removal of [other], a move of
    [other] onto [conf], or no file action. *)
Lemma unattended_rpmnew_fs (self : t) w conf other :
  py_not (unattended self) = false →
  fs (_handle_rpmnew self conf other w).2 = fs w
  ∨ fs (_handle_rpmnew self conf other w).2 = delete other (fs w)
  ∨ ∃ n, fs w !! other = Some n ∧
         fs (_handle_rpmnew self conf other w).2 = <[conf := n]> (delete other (fs w)).
Proof.
  intros Hu.
  destruct (_test_duplicate self conf other w).1 as [[]|e] eqn:Et.
  - rewrite (handle_rpmnew_duplicate _ _ _ _ Et). right; left; reflexivity.
  - rewrite (handle_rpmnew_policy _ _ _ _ Et), Hu.
    repeat case_match; try (left; reflexivity); try (right; left; reflexivity).
    unfold _overwrite, mbind, M_bind, get_fs, emit, lstat; simpl.
    destruct (fs w !! other) as [n|] eqn:En; [|left; reflexivity].
    right; right. by exists n.
  - rewrite (proj1 (handlers_raise_with_test _ _ _ _ _ Et)). by left.
Qed.

Lemma unattended_rpmsave_fs (self : t) w conf other :
  py_not (unattended self) = false →
  fs (_handle_rpmsave self conf other w).2 = fs w
  ∨ fs (_handle_rpmsave self conf other w).2 = delete other (fs w)
  ∨ ∃ n, fs w !! other = Some n ∧
         fs (_handle_rpmsave self conf other w).2 = <[conf := n]> (delete other (fs w)).
Proof.
  intros Hu.
  destruct (_test_duplicate self conf other w).1 as [[]|e] eqn:Et.
  - rewrite (handle_rpmsave_duplicate _ _ _ _ Et). right; left; reflexivity.
  - rewrite (handle_rpmsave_policy _ _ _ _ Et), Hu.
    repeat case_match; try (left; reflexivity); try (right; left; reflexivity).
    unfold _overwrite, mbind, M_bind, get_fs, emit, lstat; simpl.
    destruct (fs w !! other) as [n|] eqn:En; [|left; reflexivity].
    right; right. by exists n.
  - rewrite (proj2 (handlers_raise_with_test _ _ _ _ _ Et)). by left.
Qed.

(** X5. Whenever [unattended] is set (non-empty), whatever its value and
    whether the handler returns or raises, a handler changes no path other
    than [conf_file] and [other_file]. *)
Theorem unattended_handlers_touch_only_the_pair (self : t) w conf other p :
  py_not (unattended self) = false →
  p ≠ conf → p ≠ other →
  fs (_handle_rpmnew self conf other w).2 !! p = fs w !! p ∧
  fs (_handle_rpmsave self conf other w).2 !! p = fs w !! p.
Proof.
  intros Hu Hpc Hpo. split.
  - destruct (unattended_rpmnew_fs self w conf other Hu)
      as [->|[->|(n & _ & ->)]]; [done| |].
    + by apply lookup_delete_ne.
    + rewrite lookup_insert_ne by done. by apply lookup_delete_ne.
  - destruct (unattended_rpmsave_fs self w conf other Hu)
      as [->|[->|(n & _ & ->)]]; [done| |].
    + by apply lookup_delete_ne.
    + rewrite lookup_insert_ne by done. by apply lookup_delete_ne.
Qed.

(** X6. Whenever [unattended] is set (non-empty) and the two paths differ,
    a [conf_file] that is there before a handler runs is there afterwards:
    the configuration slot is never left empty. *)
Theorem unattended_handlers_keep_conf_file (self : t) w conf other :
  py_not (unattended self) = false →
  conf ≠ other →
  is_Some (fs w !! conf) →
  is_Some (fs (_handle_rpmnew self conf other w).2 !! conf) ∧
  is_Some (fs (_handle_rpmsave self conf other w).2 !! conf).
Proof.
  intros Hu Hne Hc. split.
  - destruct (unattended_rpmnew_fs self w conf other Hu)
      as [->|[->|(n & _ & ->)]]; [done| |].
    + by rewrite lookup_delete_ne.
    + rewrite lookup_insert_eq. eauto.
  - destruct (unattended_rpmsave_fs self w conf other Hu)
      as [->|[->|(n & _ & ->)]]; [done| |].
    + by rewrite lookup_delete_ne.
    + rewrite lookup_insert_eq. eauto.
Qed.

(** X7. In modes [maintainer] and [user], for two different paths,
    whenever a handler returns normally the variant file is gone, duplicate
    or not: the pair has been settled to the single file in [conf_file]'s
    slot. *)
Theorem settled_modes_leave_no_variant (self : t) w conf other :
  unattended self = Some "maintainer" ∨ unattended self = Some "user" →
  conf ≠ other →
  ((_handle_rpmnew self conf other w).1 = Return tt →
   fs (_handle_rpmnew self conf other w).2 !! other = None) ∧
  ((_handle_rpmsave self conf other w).1 = Return tt →
   fs (_handle_rpmsave self conf other w).2 !! other = None).
Proof.
  intros Hm Hne.
  assert (Hmove : ∀ w0 : world,
    (_overwrite other conf w0).1 = Return tt →
    fs (_overwrite other conf w0).2 !! other = None).
  { intros w0. unfold _overwrite, mbind, M_bind, get_fs, emit, lstat; simpl.
    destruct (fs w0 !! other) as [n|]; simpl; [|done].
    intros _. rewrite lookup_insert_ne by done. apply lookup_delete_eq. }
  assert (Hdel : ∀ w0 : world, fs (_remove other w0).2 !! other = None).
  { intros w0. rewrite remove_run. apply lookup_delete_eq. }
  destruct (_test_duplicate self conf other w).1 as [[]|e] eqn:Et.
  - rewrite (handle_rpmnew_duplicate _ _ _ _ Et),
      (handle_rpmsave_duplicate _ _ _ _ Et). split; intros _; apply Hdel.
  - rewrite (handle_rpmnew_policy _ _ _ _ Et),
      (handle_rpmsave_policy _ _ _ _ Et).
    destruct Hm as [Hm|Hm]; rewrite Hm; simpl; split;
      try (intros _; apply Hdel); apply Hmove.
  - destruct (handlers_raise_with_test _ _ _ _ _ Et) as [-> ->].
    split; intros [=].
Qed.

End MorePolicy.

(* ===================================================================== *)
(** ** Further properties of the session controller *)
(* ===================================================================== *)

Section MoreSession.
Import Rpmconf.
Context `{UnattendedRpmConf.Super}.

Lemma with_packages_id self : with_packages self (packages self) = self.
Proof. by destruct self. Qed.

Lemma resolved_packages_run pkgs : ∀ self w,
  resolved_packages pkgs self w =
    (Return (with_packages self (packages self ++ map dnf.name pkgs)),
     World (fs w) (trace w ++ map adding_message (map dnf.name pkgs))).
Proof.
  induction pkgs as [|pkg rest IH]; intros self w; simpl.
  - rewrite !app_nil_r, with_packages_id. by destruct w.
  - unfold mbind, M_bind, logger_debug, emit; simpl. rewrite IH; simpl.
    unfold with_packages, adding_message; simpl.
    by rewrite <- !app_assoc.
Qed.

Lemma resolved_tmp_run tmp : ∀ self w,
  resolved_tmp tmp self w =
    (Return (with_packages self
               (packages self ++ concat (map (map dnf.name) tmp))),
     World (fs w)
       (trace w ++ map adding_message (concat (map (map dnf.name) tmp)))).
Proof.
  induction tmp as [|pkgs rest IH]; intros self w; simpl.
  - rewrite !app_nil_r, with_packages_id. by destruct w.
  - unfold mbind, M_bind. rewrite resolved_packages_run, IH; simpl.
    unfold with_packages; simpl.
    by rewrite map_app, <- !app_assoc.
Qed.

Lemma resolved_interactive_run self w :
  _interactive self = Some true →
  resolved self w =
    (Return (with_packages self (packages self ++ installed_names (base self))),
     World (fs w) (trace w ++ map adding_message (installed_names (base self)))).
Proof.
  intros Hi. unfold resolved. rewrite Hi; simpl.
  rewrite resolved_tmp_run. unfold installed_names.
  by rewrite map_map.
Qed.

(** X8. On an interactive plugin [resolved] appends to the package list
    the name of every package of every [installs()] of the transaction, in
    transaction order, after the names already there and without removing
    repetitions; it logs one debug message per appended name, in the same
    order, and touches neither the file system nor any other attribute. *)
Theorem resolved_appends_installed_names self w :
  _interactive self = Some true →
  ∃ self' w',
    resolved self w = (Return self', w') ∧
    packages self' = (packages self ++ installed_names (base self))%list ∧
    base self' = base self ∧ frontend self' = frontend self ∧
    unattended self' = unattended self ∧
    _interactive self' = _interactive self ∧
    fs w' = fs w ∧
    trace w' = (trace w ++ map adding_message (installed_names (base self)))%list.
Proof.
  intros Hi. eexists _, _. rewrite (resolved_interactive_run _ _ Hi).
  repeat split.
Qed.

Lemma config_interactive_total stdin self :
  ∃ i, _interactive (config stdin self) = Some i.
Proof. unfold config; simpl. eauto. Qed.

(** X9. [__init__] does not set [_interactive]: on a plugin on which
    [config] has not run, [resolved] and [transaction] raise
    [AttributeError] and do nothing else. *)
Theorem hooks_before_config_raise b0 w :
  resolved (__init__ b0) w = (Raise AttributeError, w) ∧
  transaction (__init__ b0) w = (Raise AttributeError, w).
Proof. split; reflexivity. Qed.

(** X10. [config] always sets [_interactive], and sets it to [True]
    exactly when stdin is a terminal and neither assume flag is on. *)
Theorem config_interactive_iff stdin self :
  (_interactive (config stdin self) = Some true ↔
   (∃ s, stdin = Some s ∧ sys.isatty s = true)
   ∧ dnf.assumeyes (dnf.conf (base self)) = false
   ∧ dnf.assumeno (dnf.conf (base self)) = false) ∧
  (_interactive (config stdin self) = Some true
   ∨ _interactive (config stdin self) = Some false).
Proof.
  unfold config; simpl. split; [split|].
  - intros Hi.
    destruct stdin as [s|]; simpl in Hi; [|discriminate].
    destruct (sys.isatty s) eqn:Es; simpl in Hi; [|discriminate].
    destruct (dnf.assumeyes _) eqn:Ey; simpl in Hi; [discriminate|].
    destruct (dnf.assumeno _) eqn:En; simpl in Hi; [discriminate|].
    split; [by exists s|done].
  - intros ((s & -> & Hs) & Hy & Hn). by rewrite Hs, Hy, Hn.
  - destruct (_ || _); [by right | by left].
Qed.

(** X11. When the session runs, [transaction] catches nothing but
    [SystemExit]: a run that returns, or raises [OSError] or
    [AttributeError], has its outcome and its world handed on as they are,
    with nothing logged. *)
Theorem transaction_hands_on_other_outcomes self w i r w' :
  _interactive self = Some i →
  py_not (unattended self) && negb i = false →
  UnattendedRpmConf.run
    (UnattendedRpmConf.__init__ (packages self) (frontend self) (unattended self))
    w = (r, w') →
  (∀ code, r ≠ Raise (SystemExit code)) →
  transaction self w = (r, w').
Proof.
  intros Hi Hrun Hr Hne. unfold transaction. rewrite Hi, Hrun.
  unfold try_except_SystemExit. rewrite Hr.
  destruct r as [[]|[| |code]]; try done. by destruct (Hne code).
Qed.

(** X12. An interactive session, from [__init__] through [config] and
    [resolved] to [transaction]: the engine is built with the names of all
    installed packages of the transaction, in order, and with the frontend
    and mode that [config] read, whether a mode is set or not. *)
Theorem interactive_session_hands_over_installed_names b0 s w :
  sys.isatty s = true →
  dnf.assumeyes (dnf.conf b0) = false →
  dnf.assumeno (dnf.conf b0) = false →
  ∃ self' w',
    resolved (config (Some s) (__init__ b0)) w = (Return self', w') ∧
    packages self' = installed_names b0 ∧
    ∀ w1, transaction self' w1 =
      try_except_SystemExit
        (UnattendedRpmConf.run
           (UnattendedRpmConf.__init__ (installed_names b0)
              (frontend (config (Some s) (__init__ b0)))
              (unattended (config (Some s) (__init__ b0)))))
        on_SystemExit w1.
Proof.
  intros Hs Hy Hn.
  assert (Hi : _interactive (config (Some s) (__init__ b0)) = Some true).
  { unfold config; simpl. by rewrite Hs, Hy, Hn. }
  eexists _, _. rewrite (resolved_interactive_run _ _ Hi). repeat split.
  intros w1. unfold transaction; simpl. rewrite Hs, Hy, Hn; simpl.
  by rewrite andb_false_r.
Qed.

(** X13. What [config] decides for [transaction]. Without a terminal or
    with an assume flag, a configuration whose [unattended] is absent or not
    one of the three modes makes [transaction] log its message and skip the
    run; a configuration with one of the three modes makes it run the engine
    in that mode, interactive or not. *)
Theorem configured_session_skips_or_runs stdin self w :
  ((stdin = None ∨ (∃ s, stdin = Some s ∧ sys.isatty s = false)
    ∨ dnf.assumeyes (dnf.conf (base self)) = true
    ∨ dnf.assumeno (dnf.conf (base self)) = true) →
   (∀ m, dnf.get (dnf.read_config (dnf.conf (base self))) "main" "unattended"
           = Some m → m ∉ ["diff"; "maintainer"; "user"]) →
   transaction (config stdin self) w =
     (Return tt,
      World (fs w)
        (trace w ++ [EvDebug ("rpmconf plugin will not run in non-interactive "
                              ++ "mode without `unattended` turned on")]))) ∧
  (∀ m, m ∈ ["diff"; "maintainer"; "user"] →
     dnf.get (dnf.read_config (dnf.conf (base self))) "main" "unattended"
       = Some m →
     transaction (config stdin self) w =
       try_except_SystemExit
         (UnattendedRpmConf.run
            (UnattendedRpmConf.__init__ (packages self)
               (frontend (config stdin self)) (Some m)))
         on_SystemExit w).
Proof.
  split.
  - intros Hni Hbad.
    pose proof (config_noninteractive stdin self Hni) as Hi.
    pose proof (config_unattended stdin self) as Hu.
    destruct (dnf.get _ _ _) as [v|].
    + rewrite bool_decide_eq_false_2 in Hu by (by apply Hbad).
      unfold transaction. by rewrite Hi, Hu.
    + unfold transaction. by rewrite Hi, Hu.
  - intros m Hin Hget.
    pose proof (config_unattended stdin self) as Hu.
    rewrite Hget, (bool_decide_eq_true_2 _ Hin) in Hu.
    assert (Hm : m ≠ "").
    { intros ->. rewrite !elem_of_cons, elem_of_nil in Hin.
      destruct Hin as [?|[?|[?|[]]]]; done. }
    destruct (config_interactive_total stdin self) as [i Hi].
    unfold transaction. rewrite Hi, Hu. simpl.
    by rewrite (bool_decide_eq_false_2 _ Hm).
Qed.

End MoreSession.

(* ===================================================================== *)
(** ** The further properties at concrete inputs *)
(* ===================================================================== *)

Section MoreRuns.
Import UnattendedRpmConf Examples.

Lemma handlers_raise_on_missing_path_witness :
  is_broken_symlink (fs w_edited) conf_file = false ∧
  is_broken_symlink (fs w_edited) save_file = false ∧
  os_stat (fs w_edited) save_file = None ∧
  _handle_rpmnew (H := scripted [] None) (engine (Some "user"))
    conf_file save_file w_edited = (Raise OSError, w_edited) ∧
  _handle_rpmsave (H := scripted [] None) (engine (Some "user"))
    conf_file save_file w_edited = (Raise OSError, w_edited).
Proof.
  split; [reflexivity|]. split; [reflexivity|]. split; [reflexivity|].
  apply (handlers_raise_on_missing_path (H := scripted [] None)
           (engine (Some "user")) w_edited conf_file save_file);
    [reflexivity | reflexivity | right; reflexivity].
Defined.

Lemma falsy_mode_defers_to_base_handler_witness :
  py_not (unattended (engine (Some ""))) = true ∧
  (_test_duplicate (engine (Some "")) conf_file new_file w_edited).1
    = Return false ∧
  _handle_rpmnew (H := scripted [] None) (engine (Some ""))
    conf_file new_file w_edited
    = super_handle_rpmnew (Super := scripted [] None) (engine (Some ""))
        conf_file new_file w_edited ∧
  _handle_rpmsave (H := scripted [] None) (engine (Some ""))
    conf_file new_file w_edited
    = super_handle_rpmsave (Super := scripted [] None) (engine (Some ""))
        conf_file new_file w_edited.
Proof.
  split; [reflexivity|]. split; [reflexivity|].
  apply (falsy_mode_defers_to_base_handler (H := scripted [] None)
           (engine (Some "")) w_edited conf_file new_file); reflexivity.
Defined.

Lemma merge_is_no_mode (m : string) :
  m ≠ "merge" → Some "merge" ≠ Some m.
Proof. intros Hm [= <-]. by apply Hm. Defined.

Lemma unknown_mode_does_nothing_witness :
  py_not (unattended (engine (Some "merge"))) = false ∧
  (_test_duplicate (engine (Some "merge")) conf_file new_file w_edited).1
    = Return false ∧
  _handle_rpmnew (H := scripted [] None) (engine (Some "merge"))
    conf_file new_file w_edited = (Return tt, w_edited) ∧
  _handle_rpmsave (H := scripted [] None) (engine (Some "merge"))
    conf_file new_file w_edited = (Return tt, w_edited).
Proof.
  split; [reflexivity|]. split; [reflexivity|].
  apply (unknown_mode_does_nothing (H := scripted [] None)
           (engine (Some "merge")) w_edited conf_file new_file);
    [reflexivity | | | | reflexivity];
    apply merge_is_no_mode; intros Heq; discriminate Heq.
Defined.

Lemma hosts_is_not_conf_file : "/etc/hosts" ≠ conf_file.
Proof. intros Heq. discriminate Heq. Defined.

Lemma hosts_is_not_new_file : "/etc/hosts" ≠ new_file.
Proof. intros Heq. discriminate Heq. Defined.

Lemma unattended_handlers_touch_only_the_pair_witness :
  py_not (unattended (engine (Some "maintainer"))) = false ∧
  "/etc/hosts" ≠ conf_file ∧ "/etc/hosts" ≠ new_file ∧
  fs (_handle_rpmnew (H := scripted [] None) (engine (Some "maintainer"))
        conf_file new_file w_crowded).2 !! "/etc/hosts"
    = fs w_crowded !! "/etc/hosts" ∧
  fs (_handle_rpmsave (H := scripted [] None) (engine (Some "maintainer"))
        conf_file new_file w_crowded).2 !! "/etc/hosts"
    = fs w_crowded !! "/etc/hosts".
Proof.
  split; [reflexivity|].
  split; [exact hosts_is_not_conf_file|].
  split; [exact hosts_is_not_new_file|].
  apply (unattended_handlers_touch_only_the_pair (H := scripted [] None)
           (engine (Some "maintainer")) w_crowded conf_file new_file "/etc/hosts");
    [reflexivity | exact hosts_is_not_conf_file | exact hosts_is_not_new_file].
Defined.

Lemma conf_file_is_there : is_Some (fs w_edited !! conf_file).
Proof. exists (Regular (b "port=8080") 100). reflexivity. Defined.

Lemma unattended_handlers_keep_conf_file_witness :
  py_not (unattended (engine (Some "user"))) = false ∧
  conf_file ≠ new_file ∧
  is_Some (fs w_edited !! conf_file) ∧
  is_Some (fs (_handle_rpmnew (H := scripted [] None) (engine (Some "user"))
                 conf_file new_file w_edited).2 !! conf_file) ∧
  is_Some (fs (_handle_rpmsave (H := scripted [] None) (engine (Some "user"))
                 conf_file new_file w_edited).2 !! conf_file).
Proof.
  split; [reflexivity|]. split; [exact conf_file_new_file|].
  split; [exact conf_file_is_there|].
  apply (unattended_handlers_keep_conf_file (H := scripted [] None)
           (engine (Some "user")) w_edited conf_file new_file);
    [reflexivity | exact conf_file_new_file | exact conf_file_is_there].
Defined.

Lemma settled_modes_leave_no_variant_witness :
  unattended (engine (Some "maintainer")) = Some "maintainer" ∧
  conf_file ≠ new_file ∧
  (_handle_rpmnew (H := scripted [] None) (engine (Some "maintainer"))
     conf_file new_file w_edited).1 = Return tt ∧
  fs (_handle_rpmnew (H := scripted [] None) (engine (Some "maintainer"))
        conf_file new_file w_edited).2 !! new_file = None ∧
  (_handle_rpmsave (H := scripted [] None) (engine (Some "maintainer"))
     conf_file new_file w_edited).1 = Return tt ∧
  fs (_handle_rpmsave (H := scripted [] None) (engine (Some "maintainer"))
        conf_file new_file w_edited).2 !! new_file = None.
Proof.
  destruct (settled_modes_leave_no_variant (H := scripted [] None)
              (engine (Some "maintainer")) w_edited conf_file new_file
              (or_introl eq_refl) conf_file_new_file) as [Hnew Hsave].
  split; [reflexivity|]. split; [exact conf_file_new_file|].
  split; [reflexivity|]. split; [apply Hnew; reflexivity|].
  split; [reflexivity|]. apply Hsave; reflexivity.
Defined.

Lemma resolved_appends_installed_names_witness :
  Rpmconf._interactive
    (Rpmconf.config tty (Rpmconf.__init__ (host false false (Some "user"))))
    = Some true ∧
  ∃ self' w',
    Rpmconf.resolved
      (Rpmconf.config tty (Rpmconf.__init__ (host false false (Some "user"))))
      w_edited = (Return self', w') ∧
    Rpmconf.packages self' = ["app"; "lib"] ∧
    fs w' = fs w_edited ∧
    trace w' = [adding_message "app"; adding_message "lib"].
Proof.
  split; [reflexivity|].
  destruct (resolved_appends_installed_names
              (Rpmconf.config tty (Rpmconf.__init__ (host false false (Some "user"))))
              w_edited eq_refl)
    as (self' & w' & Hrun & Hpk & _ & _ & _ & _ & Hfs & Htr).
  exists self', w'. split; [exact Hrun|]. split; [exact Hpk|].
  split; [exact Hfs | exact Htr].
Defined.

Lemma transaction_hands_on_other_outcomes_witness :
  Rpmconf._interactive (plugin_piped (Some "user")) = Some false ∧
  py_not (Rpmconf.unattended (plugin_piped (Some "user"))) && negb false = false ∧
  UnattendedRpmConf.run (H := scripted [(rpmnew, conf_file, save_file)] None)
    (UnattendedRpmConf.__init__ [] None (Some "user")) w_edited
    = (Raise OSError, w_edited) ∧
  Rpmconf.transaction (H := scripted [(rpmnew, conf_file, save_file)] None)
    (plugin_piped (Some "user")) w_edited = (Raise OSError, w_edited).
Proof.
  split; [reflexivity|]. split; [reflexivity|]. split; [reflexivity|].
  apply (transaction_hands_on_other_outcomes
           (H := scripted [(rpmnew, conf_file, save_file)] None)
           (plugin_piped (Some "user")) w_edited false (Raise OSError) w_edited);
    [reflexivity | reflexivity | reflexivity |].
  intros code Heq. discriminate Heq.
Defined.

Lemma interactive_session_hands_over_installed_names_witness :
  sys.isatty {| sys.isatty := true |} = true ∧
  dnf.assumeyes (dnf.conf (host false false (Some "diff"))) = false ∧
  dnf.assumeno (dnf.conf (host false false (Some "diff"))) = false ∧
  ∃ self' w',
    Rpmconf.resolved
      (Rpmconf.config tty (Rpmconf.__init__ (host false false (Some "diff"))))
      w_edited = (Return self', w') ∧
    Rpmconf.packages self' = ["app"; "lib"] ∧
    ∀ w1, Rpmconf.transaction (H := scripted [] None) self' w1 =
      try_except_SystemExit
        (UnattendedRpmConf.run (H := scripted [] None)
           (UnattendedRpmConf.__init__ ["app"; "lib"] None (Some "diff")))
        Rpmconf.on_SystemExit w1.
Proof.
  split; [reflexivity|]. split; [reflexivity|]. split; [reflexivity|].
  exact (interactive_session_hands_over_installed_names (H := scripted [] None)
           (host false false (Some "diff")) {| sys.isatty := true |} w_edited
           eq_refl eq_refl eq_refl).
Defined.

Lemma merge_not_among_modes (m : string) :
  Some "merge" = Some m → m ∉ ["diff"; "maintainer"; "user"].
Proof.
  intros [= <-]. rewrite !elem_of_cons, elem_of_nil.
  intros [Heq|[Heq|[Heq|[]]]]; discriminate Heq.
Defined.

Lemma configured_session_skips_or_runs_witness :
  (Rpmconf.transaction (H := scripted [(rpmnew, conf_file, new_file)] None)
     (Rpmconf.config pipe (Rpmconf.__init__ (host false false (Some "merge"))))
     w_edited =
     (Return tt,
      World (fs w_edited)
        [EvDebug ("rpmconf plugin will not run in non-interactive "
                  ++ "mode without `unattended` turned on")])) ∧
  (Rpmconf.transaction (H := scripted [] None)
     (Rpmconf.config pipe (Rpmconf.__init__ (host false false (Some "user"))))
     w_edited =
     try_except_SystemExit
       (UnattendedRpmConf.run (H := scripted [] None)
          (UnattendedRpmConf.__init__ [] None (Some "user")))
       Rpmconf.on_SystemExit w_edited).
Proof.
  split.
  - apply (proj1 (configured_session_skips_or_runs
                    (H := scripted [(rpmnew, conf_file, new_file)] None) pipe
                    (Rpmconf.__init__ (host false false (Some "merge"))) w_edited)).
    + right. left. exists {| sys.isatty := false |}. split; reflexivity.
    + exact merge_not_among_modes.
  - apply (proj2 (configured_session_skips_or_runs (H := scripted [] None) pipe
                    (Rpmconf.__init__ (host false false (Some "user"))) w_edited)
             "user" user_is_a_mode).
    reflexivity.
Defined.

End MoreRuns.
